(** * Drizzle schema generator of the better-auth CLI

    A shallow embedding of [packages/cli/src/generators/drizzle.ts]:
    the identifier converter [convertToSnakeCase], the per-field type
    mapper [getType] with its [typeMap], the table emitter and the import
    resolver [generateImport], and the top-level [generateDrizzleSchema].
    The generator is first embedded on the inputs its TypeScript types
    admit, then, in [Runtime], on a schema as it arrives when it runs.

    JavaScript strings are modelled as [string]; every character the
    generator itself inspects or produces is ASCII.  Objects used as ordered
    maps ([tables], [fields]) are association lists holding the own
    properties in enumeration order. *)

From Stdlib Require Import String Ascii List Bool Arith Lia.
Import ListNotations.

Open Scope list_scope.
Open Scope string_scope.

(* ================================================================== *)
(** ** Characters and strings *)

Module Str.

(** The double quote, the line feed and the tab of the templates. *)
Definition dq : string := String (ascii_of_nat 34) EmptyString.
Definition nl : string := String (ascii_of_nat 10) EmptyString.
Definition tab : string := String (ascii_of_nat 9) EmptyString.

(** The character class [[A-Z]]. *)
Definition is_upper (c : ascii) : bool :=
  ((65 <=? nat_of_ascii c) && (nat_of_ascii c <=? 90))%nat.

(** [letter.toLowerCase()] on one character; outside [A-Z] an ASCII
    character is its own lower case. *)
Definition toLowerCase_char (c : ascii) : ascii :=
  if is_upper c then ascii_of_nat (nat_of_ascii c + 32) else c.

(** [str.replace(/[c]/g, f)] for a one-character class: every matching
    character is replaced by the callback's result, all others stay. *)
Fixpoint replace_class (p : ascii -> bool) (f : ascii -> string)
         (s : string) : string :=
  match s with
  | EmptyString => EmptyString
  | String c rest =>
      if p c then f c ++ replace_class p f rest
      else String c (replace_class p f rest)
  end.

(** White space as [String.prototype.trim] sees it among ASCII
    characters: tab, line feed, vertical tab, form feed, carriage return
    and space. *)
Definition is_space (c : ascii) : bool :=
  let n := nat_of_ascii c in
  (((9 <=? n) && (n <=? 13)) || (n =? 32))%nat.

Fixpoint trim_start (s : string) : string :=
  match s with
  | EmptyString => EmptyString
  | String c rest => if is_space c then trim_start rest else s
  end.

(** Drops the trailing white space: a character is kept when something
    that is not white space follows it or it is not white space itself. *)
Fixpoint trim_end (s : string) : string :=
  match s with
  | EmptyString => EmptyString
  | String c rest =>
      match trim_end rest with
      | EmptyString => if is_space c then EmptyString else String c EmptyString
      | kept => String c kept
      end
  end.

Definition trim (s : string) : string := trim_end (trim_start s).

(** [xs.join(sep)]. *)
Fixpoint join (sep : string) (xs : list string) : string :=
  match xs with
  | [] => EmptyString
  | [x] => x
  | x :: rest => x ++ sep ++ join sep rest
  end.

Definition is_empty (s : string) : bool :=
  match s with EmptyString => true | _ => false end.

(** [needle] occurs in [s] (what [s.includes(needle)] computes). *)
Fixpoint contains (needle s : string) : bool :=
  String.prefix needle s ||
  match s with
  | EmptyString => false
  | String _ rest => contains needle rest
  end.

(** Layout-insensitive reading of a text: every run of white space
    becomes one space. *)
Fixpoint collapse_ws (s : string) : string :=
  match s with
  | EmptyString => EmptyString
  | String c rest =>
      if is_space c then
        match rest with
        | String d _ =>
            if is_space d then collapse_ws rest
            else String " "%char (collapse_ws rest)
        | EmptyString => String " "%char EmptyString
        end
      else String c (collapse_ws rest)
  end.

(** The text without its layout: all white space removed. *)
Fixpoint strip_ws (s : string) : string :=
match s with
| EmptyString => EmptyString
| String c rest => if is_space c then strip_ws rest else String c (strip_ws rest)
end.

(** Number of characters of the class [p] in [s]. *)
Fixpoint count (p : ascii -> bool) (s : string) : nat :=
  match s with
  | EmptyString => 0
  | String c rest => (if p c then 1 else 0) + count p rest
  end.

End Str.

Import Str.

(* ================================================================== *)
(** ** Identifier converter: [convertToSnakeCase] *)

(** An optional boolean ([camelCase?: boolean]) read for its truthiness. *)
Definition truthy (b : option bool) : bool :=
  match b with Some true => true | _ => false end.

(** [`_${letter.toLowerCase()}`] *)
Definition snake_letter (letter : ascii) : string :=
  "_" ++ String (toLowerCase_char letter) EmptyString.

Definition convertToSnakeCase (str : string) (camelCase : option bool) : string :=
  if truthy camelCase then str
  else replace_class is_upper snake_letter str.


(* ================================================================== *)
(** ** Data model *)

(** [adapter.options.provider], when it is defined. *)
Inductive Provider : Type := sqlite | mysql | pg.

(** The provider as the string the templates interpolate. *)
Definition provider_name (databaseType : Provider) : string :=
  match databaseType with
  | sqlite => "sqlite"
  | mysql => "mysql"
  | pg => "pg"
  end.

Definition provider_eqb (a b : Provider) : bool :=
  match a, b with
  | sqlite, sqlite | mysql, mysql | pg, pg => true
  | _, _ => false
  end.

(** The field types [getType] casts [field.type] to:
    ["string" | "number" | "boolean" | "date" | "number[]" | "string[]"]. *)
Inductive FieldType : Type :=
| TString | TNumber | TBoolean | TDate | TNumberArray | TStringArray.

(** [field.references]. *)
Module Ref.
Record t : Type := mk {
  model : string;
  field : string;
  onDelete : option string
}.
End Ref.

(** A number as the generator observes it: whether it is falsy, and the
    text a template literal prints for it.  [Zero] is [0] or [-0], which
    both print as [0]; [NonZero] is any other number, finite or not, with
    its printed text ([-12], [0.5], [1e+21], [Infinity]). *)
Inductive JsNumber : Type :=
| NaN
| Zero
| NonZero (rendering : string).

(** A value of [defaultValue], as far as the generator observes it: its
    [typeof], its truthiness and its rendering in a template literal.  A
    function renders as its source text; [DObject] stands for a [Date] or an
    array and carries its rendering. *)
Inductive DefaultValue : Type :=
| DFunction (source : string)
| DString (s : string)
| DBoolean (b : bool)
| DNumber (n : JsNumber)
| DNull
| DObject (rendering : string).

Module Field.
Record t : Type := mk {
  type : FieldType;
  required : option bool;
  unique : option bool;
  bigint : option bool;
  defaultValue : option DefaultValue;
  references : option Ref.t
}.
End Field.

Record Table : Type := mkTable {
  modelName : string;
  fields : list (string * Field.t)
}.

(** [BetterAuthDbSchema]: table key to table, in enumeration order. *)
Definition BetterAuthDbSchema : Type := list (string * Table).

(** [options.advanced?.database?.useNumberId] *)
Record DatabaseOptions : Type := mkDatabase { useNumberId : option bool }.
Record AdvancedOptions : Type := mkAdvanced { database : option DatabaseOptions }.
Record BetterAuthOptions : Type := mkOptions { advanced : option AdvancedOptions }.

(** [adapter.options]: the Drizzle adapter's configuration. *)
Record AdapterOptions : Type := mkAdapterOptions {
  provider : option Provider;
  camelCase : option bool;
  usePlural : option bool
}.

Module Adapter.
Record t : Type := mk { options : option AdapterOptions }.
End Adapter.

(** Optional chaining [o?.f] on an optional object and an optional member. *)
Definition chain {A B : Type} (o : option A) (f : A -> option B) : option B :=
  match o with
  | Some a => f a
  | None => None
  end.

Definition useNumberId_of (options : BetterAuthOptions) : bool :=
  truthy (chain (chain (advanced options) database) useNumberId).

Definition camelCase_of (adapter : Adapter.t) : option bool :=
  chain (Adapter.options adapter) camelCase.

(** ** Values in conditions and templates *)

(** Truthiness of a default value: [if (attr.defaultValue)]. *)
Definition js_truthy (v : DefaultValue) : bool :=
  match v with
  | DFunction _ => true
  | DString s => negb (is_empty s)
  | DBoolean b => b
  | DNumber NaN => false
  | DNumber Zero => false
  | DNumber (NonZero _) => true
  | DNull => false
  | DObject _ => true
  end.

(** [`${v}`] *)
Definition js_render (v : DefaultValue) : string :=
  match v with
  | DFunction source => source
  | DString s => s
  | DBoolean true => "true"
  | DBoolean false => "false"
  | DNumber NaN => "NaN"
  | DNumber Zero => "0"
  | DNumber (NonZero rendering) => rendering
  | DNull => "null"
  | DObject rendering => rendering
  end.

(** [s || fallback] on an optional string: absent and empty are falsy. *)
Definition or_default (s : option string) (fallback : string) : string :=
  match s with
  | Some v => if is_empty v then fallback else v
  | None => fallback
  end.

(** ** Errors *)

(** The two [throw] statements of the module carry the same message; a
    thrown error remembers which statement raised it. *)
Inductive ThrowSite : Type := EntryGuard | GetTypeGuard.

Record Error : Type := mkError { site : ThrowSite; message : string }.

Definition missing_provider_message : string :=
  "Database provider type is undefined during Drizzle schema generation. Please define a `provider` in the Drizzle adapter config. Read more at https://better-auth.com/docs/adapters/drizzle".

Inductive Outcome (A : Type) : Type :=
| Returned (a : A)
| Thrown (e : Error).
Arguments Returned {A} a.
Arguments Thrown {A} e.

Definition obind {A B : Type} (m : Outcome A) (k : A -> Outcome B) : Outcome B :=
  match m with
  | Returned a => k a
  | Thrown e => Thrown e
  end.

(** [xs.map(f)] where [f] may throw: the first throw ends the walk. *)
Fixpoint omap {A B : Type} (f : A -> Outcome B) (xs : list A) : Outcome (list B) :=
  match xs with
  | [] => Returned []
  | x :: rest =>
      obind (f x) (fun y => obind (omap f rest) (fun ys => Returned (y :: ys)))
  end.

(* ================================================================== *)
(** ** The generator *)

Definition getModelName (modelName : string) (options : option AdapterOptions) : string :=
  if truthy (chain options usePlural) then modelName ++ "s" else modelName.

(** The nested lookup table of [getType], [typeMap[type][databaseType]],
    for the already converted column [name]. *)
Definition typeMap (name : string) (field : Field.t)
           (type : FieldType) (databaseType : Provider) : string :=
  match type, databaseType with
  | TString, sqlite => "text('" ++ name ++ "')"
  | TString, pg => "text('" ++ name ++ "')"
  | TString, mysql =>
      if truthy (Field.unique field) then "varchar('" ++ name ++ "', { length: 255 })"
      else match Field.references field with
           | Some _ => "varchar('" ++ name ++ "', { length: 36 })"
           | None => "text('" ++ name ++ "')"
           end
  | TBoolean, sqlite => "integer('" ++ name ++ "', { mode: 'boolean' })"
  | TBoolean, pg => "boolean('" ++ name ++ "')"
  | TBoolean, mysql => "boolean('" ++ name ++ "')"
  | TNumber, sqlite => "integer('" ++ name ++ "')"
  | TNumber, pg =>
      if truthy (Field.bigint field) then "bigint('" ++ name ++ "', { mode: 'number' })"
      else "integer('" ++ name ++ "')"
  | TNumber, mysql =>
      if truthy (Field.bigint field) then "bigint('" ++ name ++ "', { mode: 'number' })"
      else "int('" ++ name ++ "')"
  | TDate, sqlite => "integer('" ++ name ++ "', { mode: 'timestamp' })"
  | TDate, pg => "timestamp('" ++ name ++ "')"
  | TDate, mysql => "timestamp('" ++ name ++ "')"
  | TNumberArray, sqlite => "integer('" ++ name ++ "').array()"
  | TNumberArray, pg =>
      if truthy (Field.bigint field) then "bigint('" ++ name ++ "', { mode: 'number' }).array()"
      else "integer('" ++ name ++ "').array()"
  | TNumberArray, mysql =>
      if truthy (Field.bigint field) then "bigint('" ++ name ++ "', { mode: 'number' }).array()"
      else "int('" ++ name ++ "').array()"
  | TStringArray, sqlite => "text('" ++ name ++ "').array()"
  | TStringArray, pg => "text('" ++ name ++ "').array()"
  | TStringArray, mysql => "text('" ++ name ++ "').array()"
  end.

(** [field.references?.field === "id"] *)
Definition references_id (field : Field.t) : bool :=
  match Field.references field with
  | Some r => String.eqb (Ref.field r) "id"
  | None => false
  end.

(** The branch of [getType] taken when the field references an [id]:
    the body of [if (field.references?.field === "id") { ... }], for the
    reference [r] found there. *)
Definition id_reference_type (name : string) (r : Ref.t)
           (options : BetterAuthOptions) (databaseType : Provider) : string :=
  if useNumberId_of options then
    match databaseType with
    | pg => "integer('" ++ name ++ "')"
    | mysql => "int('" ++ name ++ "')"
    | sqlite => "integer('" ++ name ++ "')"
    end
  else if negb (is_empty (Ref.field r)) && provider_eqb databaseType mysql
  then "varchar('" ++ name ++ "', { length: 36 })"
  else "text('" ++ name ++ "')".

(** [getType(name, field)], a closure over [databaseType], [adapter] and
    [options]; [databaseType] has the declared type of the captured
    variable, [undefined] included. *)
Definition getType (databaseType : option Provider) (adapter : Adapter.t)
           (options : BetterAuthOptions)
           (name : string) (field : Field.t) : Outcome string :=
  match databaseType with
  | None => Thrown (mkError GetTypeGuard missing_provider_message)
  | Some db =>
      let name := convertToSnakeCase name (camelCase_of adapter) in
      match Field.references field with
      | Some r =>
          if String.eqb (Ref.field r) "id"
          then Returned (id_reference_type name r options db)
          else Returned (typeMap name field (Field.type field) db)
      | None => Returned (typeMap name field (Field.type field) db)
      end
  end.

(** The local [id] of the table loop: the primary-key column. *)
Definition id_column (options : BetterAuthOptions) (databaseType : Provider) : string :=
  if useNumberId_of options then
    match databaseType with
    | pg => "serial(" ++ dq ++ "id" ++ dq ++ ").primaryKey()"
    | _ => "int(" ++ dq ++ "id" ++ dq ++ ").autoincrement.primaryKey()"
    end
  else
    match databaseType with
    | mysql => "varchar('id', { length: 36 }).primaryKey()"
    | pg => "text('id').primaryKey()"
    | sqlite => "text('id').primaryKey()"
    end.

(** The [if (attr.defaultValue) { ... }] statement: what is appended to
    [type]. *)
Definition default_modifier (defaultValue : option DefaultValue) : string :=
  match defaultValue with
  | Some v =>
      if js_truthy v then
        match v with
        | DFunction _ => ".$defaultFn(" ++ js_render v ++ ")"
        | DString _ => ".default(" ++ dq ++ js_render v ++ dq ++ ")"
        | _ => ".default(" ++ js_render v ++ ")"
        end
      else ""
  | None => ""
  end.

Definition notNull_modifier (attr : Field.t) : string :=
  if truthy (Field.required attr) then ".notNull()" else "".

Definition unique_modifier (attr : Field.t) : string :=
  if truthy (Field.unique attr) then ".unique()" else "".

Definition references_modifier (adapter : Adapter.t) (attr : Field.t) : string :=
  match Field.references attr with
  | Some r =>
      ".references(()=> " ++ getModelName (Ref.model r) (Adapter.options adapter)
        ++ "." ++ Ref.field r ++ ", { onDelete: '"
        ++ or_default (Ref.onDelete r) "cascade" ++ "' })"
  | None => ""
  end.

(** The callback of [Object.keys(fields).map(...)]: one column line. *)
Definition column (databaseType : option Provider) (adapter : Adapter.t)
           (options : BetterAuthOptions)
           (entry : string * Field.t) : Outcome string :=
  let '(field, attr) := entry in
  obind (getType databaseType adapter options field attr) (fun type =>
  let type := type ++ default_modifier (Field.defaultValue attr) in
  Returned (field ++ ": " ++ type ++ notNull_modifier attr
              ++ unique_modifier attr ++ references_modifier adapter attr)).

(** The template literal [schema] of one table, with its interpolated
    parts: the exported binding, the quoted table name, the primary key and
    the column lines. *)
Definition schema_template (db : Provider) (exported quoted id : string)
           (columns : list string) : string :=
  "export const " ++ exported ++ " = " ++ provider_name db ++ "Table(" ++ dq
    ++ quoted ++ dq ++ ", {" ++ nl
    ++ tab ++ tab ++ tab ++ tab ++ tab ++ "id: " ++ id ++ "," ++ nl
    ++ tab ++ tab ++ tab ++ tab ++ tab ++ join ("," ++ nl ++ " ") columns ++ nl
    ++ tab ++ tab ++ tab ++ tab ++ "});".

Definition schema (db : Provider) (adapter : Adapter.t)
           (options : BetterAuthOptions) (table : Table) : Outcome string :=
  let modelName := getModelName (modelName table) (Adapter.options adapter) in
  let id := id_column options db in
  obind (omap (column (Some db) adapter options) (fields table)) (fun columns =>
  Returned
    (schema_template db modelName
       (convertToSnakeCase modelName (camelCase_of adapter)) id columns)).

(** [Object.values(tables).some(table =>
       Object.values(table.fields).some(field => field.bigint))] *)
Definition hasBigint (tables : BetterAuthDbSchema) : bool :=
  existsb (fun entry =>
             existsb (fun f => truthy (Field.bigint (snd f))) (fields (snd entry)))
          tables.

(** The six [imports.push(...)] of [generateImport], in order. *)
Definition import_candidates (databaseType : Provider)
           (tables : BetterAuthDbSchema) (options : BetterAuthOptions) : list string :=
  [ provider_name databaseType ++ "Table";
    match databaseType with
    | mysql => "varchar, text"
    | pg => "text"
    | sqlite => "text"
    end;
    if hasBigint tables
    then (if negb (provider_eqb databaseType sqlite) then "bigint" else "")
    else "";
    if negb (provider_eqb databaseType sqlite) then "timestamp, boolean" else "";
    if provider_eqb databaseType mysql then "int" else "integer";
    if useNumberId_of options
    then (if provider_eqb databaseType pg then "serial" else "")
    else "" ].

(** [imports.map((x) => x.trim()).filter((x) => x !== "")] *)
Definition import_symbols (databaseType : Provider)
           (tables : BetterAuthDbSchema) (options : BetterAuthOptions) : list string :=
  filter (fun x => negb (is_empty x))
         (map trim (import_candidates databaseType tables options)).

Definition generateImport (databaseType : Provider)
           (tables : BetterAuthDbSchema) (options : BetterAuthOptions) : string :=
  "import { " ++ join ", " (import_symbols databaseType tables options)
    ++ " } from " ++ dq ++ "drizzle-orm/" ++ provider_name databaseType
    ++ "-core" ++ dq ++ ";" ++ nl.

(* ================================================================== *)
(** ** Top-level orchestration: [generateDrizzleSchema] *)

(** The collaborators the generator calls: the schema derivation
    [getAuthTables], the file-existence probe [existsSync] and the formatter
    [prettier.format]. *)
Record World : Type := mkWorld {
  getAuthTables : BetterAuthOptions -> BetterAuthDbSchema;
  existsSync : string -> bool;
  prettier_format : string -> string
}.

(** What a run does, in the order it does it. *)
Inductive Event : Type :=
| EvExistsSync (path : string)
| EvGenerateImport
| EvTable (tableKey : string)
| EvFormat.

(** A computation that logs its steps and may throw. *)
Definition M (A : Type) : Type := (list Event * Outcome A)%type.

Definition ret {A : Type} (a : A) : M A := ([], Returned a).

Definition throw {A : Type} (e : Error) : M A := ([], Thrown e).

Definition tell (ev : Event) : M unit := ([ev], Returned tt).

Definition lift {A : Type} (o : Outcome A) : M A := ([], o).

Definition bind {A B : Type} (m : M A) (k : A -> M B) : M B :=
  match m with
  | (log, Returned a) => let '(log', r) := k a in ((log ++ log')%list, r)
  | (log, Thrown e) => (log, Thrown e)
  end.

Declare Scope gen_scope.
Delimit Scope gen_scope with gen.
Notation "x <- m ;; k" := (bind m (fun x => k))
  (at level 61, m at next level, right associativity) : gen_scope.
Notation "m ;;; k" := (bind m (fun _ => k))
  (at level 61, right associativity) : gen_scope.

Record GeneratorResult : Type := mkResult {
  code : string;
  fileName : string;
  overwrite : bool
}.

(** The loop [for (const tableKey in tables)], threading [code]. *)
Fixpoint emit_tables (db : Provider) (adapter : Adapter.t)
         (options : BetterAuthOptions) (tables : BetterAuthDbSchema)
         (code : string) : M string :=
  match tables with
  | [] => ret code
  | (tableKey, table) :: rest =>
      (tell (EvTable tableKey) ;;;
       text <- lift (schema db adapter options table) ;;
       emit_tables db adapter options rest (code ++ nl ++ text ++ nl))%gen
  end.

Definition default_file : string := "./auth-schema.ts".

Definition generateDrizzleSchema (w : World) (options : BetterAuthOptions)
           (file : option string) (adapter : Adapter.t) : M GeneratorResult :=
  let tables := getAuthTables w options in
  let filePath := or_default file default_file in
  let databaseType := chain (Adapter.options adapter) provider in
  match databaseType with
  | None => throw (mkError EntryGuard missing_provider_message)
  | Some db =>
      (tell (EvExistsSync filePath) ;;;
       let fileExist := existsSync w filePath in
       tell EvGenerateImport ;;;
       let code := generateImport db tables options in
       code <- emit_tables db adapter options tables code ;;
       tell EvFormat ;;;
       let formattedCode := prettier_format w code in
       ret (mkResult formattedCode filePath fileExist))%gen
  end.

(* ================================================================== *)
(** ** The specification's reading of the components *)

Module Spec.

(** "Every uppercase letter replaced by an underscore followed by its
    lowercase form", character by character. *)
Definition snake_char (c : ascii) : string :=
  if is_upper c
  then String "_"%char (String (ascii_of_nat (nat_of_ascii c + 32)) EmptyString)
  else String c EmptyString.

Fixpoint snake_case (name : string) : string :=
  match name with
  | EmptyString => EmptyString
  | String c rest => snake_char c ++ snake_case rest
  end.

(** Primary Key Resolver: [primaryKey(backend, useNumberId)]. *)
Definition primaryKey (backend : Provider) (useNumberId : bool) : string :=
  match useNumberId, backend with
  | true, pg => "serial(" ++ dq ++ "id" ++ dq ++ ").primaryKey()"
  | true, sqlite => "int(" ++ dq ++ "id" ++ dq ++ ").autoincrement.primaryKey()"
  | true, mysql => "int(" ++ dq ++ "id" ++ dq ++ ").autoincrement.primaryKey()"
  | false, mysql => "varchar('id', { length: 36 }).primaryKey()"
  | false, sqlite => "text('id').primaryKey()"
  | false, pg => "text('id').primaryKey()"
  end.

(** Type Mapper, step 2: the column that points at a primary key. *)
Definition id_reference (backend : Provider) (useNumberId : bool)
           (name : string) : string :=
  if useNumberId then
    match backend with
    | mysql => "int('" ++ name ++ "')"
    | _ => "integer('" ++ name ++ "')"
    end
  else
    match backend with
    | mysql => "varchar('" ++ name ++ "', { length: 36 })"
    | _ => "text('" ++ name ++ "')"
    end.

(** Import Resolver: the symbols, in the order the specification
    enumerates them. *)
Definition import_list (backend : Provider) (anyBigint useNumberId : bool)
  : list string :=
  ([ (provider_name backend ++ "Table")%string ]
   ++ [ if provider_eqb backend mysql then "varchar, text" else "text" ]
   ++ (if negb (provider_eqb backend sqlite) && anyBigint then [ "bigint" ] else [])
   ++ (if negb (provider_eqb backend sqlite) then [ "timestamp, boolean" ] else [])
   ++ [ if provider_eqb backend mysql then "int" else "integer" ]
   ++ (if provider_eqb backend pg && useNumberId then [ "serial" ] else []))%list.

(** Some field anywhere in the schema has [bigint] true. *)
Definition some_bigint (tables : BetterAuthDbSchema) : Prop :=
  exists tableKey table fieldKey field,
    In (tableKey, table) tables /\
    In (fieldKey, field) (fields table) /\
    Field.bigint field = Some true.

(** The element type of an array type. *)
Definition element_type (t : FieldType) : FieldType :=
  match t with
  | TStringArray => TString
  | TNumberArray => TNumber
  | other => other
  end.

End Spec.

(** The same field with another declared type. *)
Definition with_type (field : Field.t) (t : FieldType) : Field.t :=
  Field.mk t (Field.required field) (Field.unique field) (Field.bigint field)
           (Field.defaultValue field) (Field.references field).

(** The array modifier appended to a returned fragment. *)
Definition array_of (fragment : Outcome string) : Outcome string :=
  obind fragment (fun s => Returned (s ++ ".array()")).

(** ** The end-to-end scenario *)

Module Scenario.

Definition name_field : Field.t :=
  Field.mk TString (Some true) None None None None.

(** [{ user: { modelName: "user", fields: { name: { type: "string",
      required: true } } } }] *)
Definition user_schema : BetterAuthDbSchema :=
  [ ("user", mkTable "user" [ ("name", name_field) ]) ].

(** [options = {}] and an adapter configured with [provider: "pg"] only. *)
Definition empty_options : BetterAuthOptions := mkOptions None.

Definition pg_adapter : Adapter.t :=
  Adapter.mk (Some (mkAdapterOptions (Some pg) None None)).

(** A world with no file on disk and a formatter that leaves the text as
    it is. *)
Definition plain_world : World :=
  mkWorld (fun _ => user_schema) (fun _ => false) (fun text => text).

(** The import line the scenario of the specification expects. *)
Definition expected_import_line : string :=
  "import { pgTable, text } from " ++ dq ++ "drizzle-orm/pg-core" ++ dq ++ ";".

(** The import line the generator writes for this schema. *)
Definition written_import_line : string :=
  "import { pgTable, text, timestamp, boolean, integer } from "
    ++ dq ++ "drizzle-orm/pg-core" ++ dq ++ ";".

(** The declaration the scenario expects, on one line. *)
Definition expected_declaration : string :=
  "export const user = pgTable(" ++ dq ++ "user" ++ dq
    ++ ", { id: text('id').primaryKey(), name: text('name').notNull() });".

(** The text handed to the formatter. *)
Definition raw_text : string :=
  written_import_line ++ nl ++ nl
    ++ "export const user = pgTable(" ++ dq ++ "user" ++ dq ++ ", {" ++ nl
    ++ tab ++ tab ++ tab ++ tab ++ tab ++ "id: text('id').primaryKey()," ++ nl
    ++ tab ++ tab ++ tab ++ tab ++ tab ++ "name: text('name').notNull()" ++ nl
    ++ tab ++ tab ++ tab ++ tab ++ "});" ++ nl.

(** The scenario as the specification states it, for a world [w]. *)
Definition as_stated (w : World) : Prop :=
  exists log r,
    generateDrizzleSchema w empty_options None pg_adapter = (log, Returned r) /\
    contains expected_import_line (code r) = true /\
    contains expected_declaration (collapse_ws (code r)) = true /\
    fileName r = default_file /\
    overwrite r = false.

(** A boolean field with a [false] default, as the plugins declare it. *)
Definition banned_field : Field.t :=
  Field.mk TBoolean None None None (Some (DBoolean false)) None.

(** A unique array of strings. *)
Definition tags_field : Field.t :=
  Field.mk TStringArray None (Some true) None None None.

Definition mysql_adapter : Adapter.t :=
  Adapter.mk (Some (mkAdapterOptions (Some mysql) None None)).

End Scenario.

(* ================================================================== *)
(** ** Reading the generated text *)

(** The column constructor a fragment calls: its text before the first
    opening parenthesis. *)
Fixpoint constructor_of (fragment : string) : string :=
  match fragment with
  | EmptyString => EmptyString
  | String c rest =>
      if Ascii.eqb c "("%char then EmptyString
      else String c (constructor_of rest)
  end.

(** The names listed in one entry of the import list: the entry cut at its
    commas, blanks dropped. *)
Fixpoint names_from (current entry : string) : list string :=
  match entry with
  | EmptyString => [current]
  | String c rest =>
      if Ascii.eqb c ","%char then current :: names_from EmptyString rest
      else if is_space c then names_from current rest
      else names_from (current ++ String c EmptyString) rest
  end.

(** Every name the import line of [generateImport] brings into scope. *)
Definition imported_names (databaseType : Provider)
           (tables : BetterAuthDbSchema) (options : BetterAuthOptions) : list string :=
  flat_map (names_from EmptyString) (import_symbols databaseType tables options).

(** What the table loop appends to [code]: for each declaration a line
    feed, the declaration and a line feed. *)
Definition table_blocks (declarations : list string) : string :=
  fold_right (fun text rest => nl ++ text ++ nl ++ rest) EmptyString declarations.

(** The same field with another default value. *)
Definition with_default (field : Field.t) (d : option DefaultValue) : Field.t :=
  Field.mk (Field.type field) (Field.required field) (Field.unique field)
           (Field.bigint field) d (Field.references field).

(** [onDelete || "cascade"] read case by case. *)
Definition delete_policy (r : Ref.t) : string :=
  match Ref.onDelete r with
  | Some (String c policy) => String c policy
  | _ => "cascade"
  end.

(* ================================================================== *)
(** ** Texts up to the formatter's choices *)

(** A closing bracket. *)
Definition is_closing (c : ascii) : bool :=
  (Ascii.eqb c "}" || Ascii.eqb c ")" || Ascii.eqb c "]")%char.

(** Single quotes written as double quotes, and a comma dropped when a
    closing bracket follows it. *)
Fixpoint unify_punctuation (s : string) : string :=
  match s with
  | EmptyString => EmptyString
  | String c rest =>
      if Ascii.eqb c ","%char then
        match rest with
        | String d _ =>
            if is_closing d then unify_punctuation rest
            else String c (unify_punctuation rest)
        | EmptyString => String c EmptyString
        end
      else if Ascii.eqb c "'"%char
      then String (ascii_of_nat 34) (unify_punctuation rest)
      else String c (unify_punctuation rest)
  end.

(** A text read up to what a formatter of TypeScript is free to change:
    white space, the quote style and trailing commas. *)
Definition up_to_layout (s : string) : string := unify_punctuation (strip_ws s).

Module Layout.

(** The scenario's text laid out the way prettier lays out TypeScript: the
    import list, too long for one line, broken into one name per line with
    a trailing comma, two spaces of indentation, double quotes. *)
Definition pretty_text : string :=
  "import {" ++ nl
    ++ "  pgTable," ++ nl
    ++ "  text," ++ nl
    ++ "  timestamp," ++ nl
    ++ "  boolean," ++ nl
    ++ "  integer," ++ nl
    ++ "} from " ++ dq ++ "drizzle-orm/pg-core" ++ dq ++ ";" ++ nl
    ++ nl
    ++ "export const user = pgTable(" ++ dq ++ "user" ++ dq ++ ", {" ++ nl
    ++ "  id: text(" ++ dq ++ "id" ++ dq ++ ").primaryKey()," ++ nl
    ++ "  name: text(" ++ dq ++ "name" ++ dq ++ ").notNull()," ++ nl
    ++ "});" ++ nl.

(** The scenario's world with that formatter and no file on disk. *)
Definition pretty_world : World :=
  mkWorld (fun _ => Scenario.user_schema) (fun _ => false) (fun _ => pretty_text).

End Layout.

(* ================================================================== *)
(** ** The generator on a schema as it arrives *)

(** TypeScript's types are erased when the generator runs: [field.type]
    can be a key [typeMap] does not have, and [prettier.format] can reject
    the text.  [Runtime] is [generateDrizzleSchema] on such inputs; on
    fields of the six types and with a formatter that accepts, it is the
    generator above ([Runtime.getType] reads [typeMap] through the cast). *)
Module Runtime.

(** A field as it arrives.  [type] is the property key [field.type]
    converts to in [typeMap[type]]: ["string"], ["json"], or, for an array
    of literals such as [['admin', 'user']], its elements joined by
    commas. *)
Record Attribute : Type := attribute {
  type : string;
  required : option bool;
  unique : option bool;
  bigint : option bool;
  defaultValue : option DefaultValue;
  references : option Ref.t
}.

Record Model : Type := model {
  modelName : string;
  fields : list (string * Attribute)
}.

Definition Schema : Type := list (string * Model).

(** The own keys of the object literal [typeMap]. *)
Definition own_key (key : string) : option FieldType :=
  if String.eqb key "string" then Some TString
  else if String.eqb key "boolean" then Some TBoolean
  else if String.eqb key "number" then Some TNumber
  else if String.eqb key "date" then Some TDate
  else if String.eqb key "number[]" then Some TNumberArray
  else if String.eqb key "string[]" then Some TStringArray
  else None.

(** The keys [typeMap] inherits from [Object.prototype]; none of the values
    found there has a property named after a provider. *)
Definition object_prototype_keys : list string :=
  [ "constructor"; "__defineGetter__"; "__defineSetter__"; "hasOwnProperty";
    "__lookupGetter__"; "__lookupSetter__"; "isPrototypeOf";
    "propertyIsEnumerable"; "toString"; "valueOf"; "__proto__";
    "toLocaleString" ].

Definition inherited_key (key : string) : bool :=
  existsb (String.eqb key) object_prototype_keys.

(** [field.type as ...]: the field read at the type of the cast; where the
    key is none of the six the type stands at [TString] and nothing reads
    it. *)
Definition cast (field : Attribute) : Field.t :=
  Field.mk (match own_key (type field) with Some t => t | None => TString end)
           (required field) (unique field) (bigint field)
           (defaultValue field) (references field).

Definition cast_model (table : Model) : Table :=
  mkTable (modelName table) (map (fun entry => (fst entry, cast (snd entry))) (fields table)).

Definition cast_schema (tables : Schema) : BetterAuthDbSchema :=
  map (fun entry => (fst entry, cast_model (snd entry))) tables.

(** What a run can end in: an [Error] of one of the two guards, the
    [TypeError] of reading a provider's property of [undefined], or the
    rejection of the formatter. *)
Inductive Failure : Type :=
| ConfigurationError (e : Error)
| TypeError (reading : string)
| FormatterError (reason : string).

Inductive Completion (A : Type) : Type :=
| Normal (a : A)
| Abrupt (f : Failure).
Arguments Normal {A} a.
Arguments Abrupt {A} f.

Definition cbind {A B : Type} (m : Completion A) (k : A -> Completion B) : Completion B :=
  match m with
  | Normal a => k a
  | Abrupt f => Abrupt f
  end.

Fixpoint cmap {A B : Type} (f : A -> Completion B) (xs : list A) : Completion (list B) :=
  match xs with
  | [] => Normal []
  | x :: rest =>
      cbind (f x) (fun y => cbind (cmap f rest) (fun ys => Normal (y :: ys)))
  end.

(** [typeMap[type][databaseType]]: the entry of an own key, [undefined]
    under an inherited key, and a [TypeError] when [typeMap[type]] is
    [undefined]. *)
Definition typeMap_lookup (name : string) (field : Attribute)
           (databaseType : Provider) : Completion (option string) :=
  match own_key (type field) with
  | Some t => Normal (Some (typeMap name (cast field) t databaseType))
  | None =>
      if inherited_key (type field) then Normal None
      else Abrupt (TypeError (provider_name databaseType))
  end.

(** [getType(name, field)]; [None] is [undefined]. *)
Definition getType (databaseType : option Provider) (adapter : Adapter.t)
           (options : BetterAuthOptions)
           (name : string) (field : Attribute) : Completion (option string) :=
  match databaseType with
  | None => Abrupt (ConfigurationError (mkError GetTypeGuard missing_provider_message))
  | Some db =>
      let name := convertToSnakeCase name (camelCase_of adapter) in
      match references field with
      | Some r =>
          if String.eqb (Ref.field r) "id"
          then Normal (Some (id_reference_type name r options db))
          else typeMap_lookup name field db
      | None => typeMap_lookup name field db
      end
  end.

(** A fragment in a template literal or on the left of [+=]. *)
Definition render_fragment (fragment : option string) : string :=
  match fragment with
  | Some text => text
  | None => "undefined"
  end.

(** The callback of [Object.keys(fields).map(...)]. *)
Definition column (databaseType : option Provider) (adapter : Adapter.t)
           (options : BetterAuthOptions)
           (entry : string * Attribute) : Completion string :=
  let '(field, attr) := entry in
  cbind (getType databaseType adapter options field attr) (fun type =>
  let type := render_fragment type ++ default_modifier (defaultValue attr) in
  Normal (field ++ ": " ++ type ++ notNull_modifier (cast attr)
            ++ unique_modifier (cast attr) ++ references_modifier adapter (cast attr))).

Definition schema (db : Provider) (adapter : Adapter.t)
           (options : BetterAuthOptions) (table : Model) : Completion string :=
  let modelName := getModelName (modelName table) (Adapter.options adapter) in
  let id := id_column options db in
  cbind (cmap (column (Some db) adapter options) (fields table)) (fun columns =>
  Normal
    (schema_template db modelName
       (convertToSnakeCase modelName (camelCase_of adapter)) id columns)).

(** [generateImport] reads [field.bigint] only. *)
Definition generateImport (databaseType : Provider) (tables : Schema)
           (options : BetterAuthOptions) : string :=
  generateImport databaseType (cast_schema tables) options.

(** The collaborators; the formatter answers with the formatted text or
    with the reason of its rejection. *)
Record World : Type := world {
  getAuthTables : BetterAuthOptions -> Schema;
  existsSync : string -> bool;
  prettier_format : string -> string + string
}.

Definition Run (A : Type) : Type := (list Event * Completion A)%type.

Definition rbind {A B : Type} (m : Run A) (k : A -> Run B) : Run B :=
  match m with
  | (log, Normal a) => let '(log', r) := k a in ((log ++ log')%list, r)
  | (log, Abrupt f) => (log, Abrupt f)
  end.

Definition log_event (ev : Event) : Run unit := ([ev], Normal tt).

Fixpoint emit_tables (db : Provider) (adapter : Adapter.t)
         (options : BetterAuthOptions) (tables : Schema)
         (code : string) : Run string :=
  match tables with
  | [] => ([], Normal code)
  | (tableKey, table) :: rest =>
      rbind (log_event (EvTable tableKey)) (fun _ =>
      rbind ([], schema db adapter options table) (fun text =>
      emit_tables db adapter options rest (code ++ nl ++ text ++ nl)))
  end.

(** [await prettier.format(code, ...)] *)
Definition format (w : World) (code : string) : Run string :=
  match prettier_format w code with
  | inl formattedCode => ([EvFormat], Normal formattedCode)
  | inr reason => ([EvFormat], Abrupt (FormatterError reason))
  end.

Definition generateDrizzleSchema (w : World) (options : BetterAuthOptions)
           (file : option string) (adapter : Adapter.t) : Run GeneratorResult :=
  let tables := getAuthTables w options in
  let filePath := or_default file default_file in
  let databaseType := chain (Adapter.options adapter) provider in
  match databaseType with
  | None =>
      ([], Abrupt (ConfigurationError (mkError EntryGuard missing_provider_message)))
  | Some db =>
      rbind (log_event (EvExistsSync filePath)) (fun _ =>
      let fileExist := existsSync w filePath in
      rbind (log_event EvGenerateImport) (fun _ =>
      let code := generateImport db tables options in
      rbind (emit_tables db adapter options tables code) (fun code =>
      rbind (format w code) (fun formattedCode =>
      ([], Normal (mkResult formattedCode filePath fileExist))))))
  end.

(** The field makes the lookup in [typeMap] fault: it does not reference
    an [id] and its type is no key of [typeMap], own or inherited. *)
Definition faults (field : Attribute) : bool :=
  negb (references_id (cast field))
  && match own_key (type field) with
     | Some _ => false
     | None => negb (inherited_key (type field))
     end.

Definition model_faults (table : Model) : bool :=
  existsb (fun entry => faults (snd entry)) (fields table).

Definition schema_faults (tables : Schema) : bool :=
  existsb (fun entry => model_faults (snd entry)) tables.

(** ** From the typed schema to the schema as it arrives *)

Definition key_of (t : FieldType) : string :=
  match t with
  | TString => "string"
  | TNumber => "number"
  | TBoolean => "boolean"
  | TDate => "date"
  | TNumberArray => "number[]"
  | TStringArray => "string[]"
  end.

Definition erase (field : Field.t) : Attribute :=
  attribute (key_of (Field.type field)) (Field.required field) (Field.unique field)
            (Field.bigint field) (Field.defaultValue field) (Field.references field).

End Runtime.

(** The typed schema, erased. *)
Definition erase_table (table : Table) : Runtime.Model :=
  Runtime.model (modelName table)
                (map (fun entry => (fst entry, Runtime.erase (snd entry))) (fields table)).

Definition erase_schema (tables : BetterAuthDbSchema) : Runtime.Schema :=
  map (fun entry => (fst entry, erase_table (snd entry))) tables.

(** A world whose schema has the six types and whose formatter accepts. *)
Definition erase_world (w : World) : Runtime.World :=
  Runtime.world (fun options => erase_schema (getAuthTables w options))
                (existsSync w)
                (fun code => inl (prettier_format w code)).

(** A typed outcome and a typed run read as run-time ones. *)
Definition as_completion {A : Type} (o : Outcome A) : Runtime.Completion A :=
  match o with
  | Returned a => Runtime.Normal a
  | Thrown e => Runtime.Abrupt (Runtime.ConfigurationError e)
  end.

Definition as_run {A : Type} (m : M A) : Runtime.Run A :=
  (fst m, as_completion (snd m)).

(** ** A field of type json *)

Module JsonScenario.



End JsonScenario.

(* ================================================================== *)
(** * Properties *)

(** ** Strings *)

Lemma prefix_app (needle s : string) :
  String.prefix needle s = true <-> exists after, s = needle ++ after.
Proof.
  revert s; induction needle as [|c needle IH]; intros s; simpl.
  - split; [intros _; exists s; reflexivity | intros _; destruct s; reflexivity].
  - destruct s as [|d s].
    + simpl. split; [discriminate | intros [after H]; discriminate].
    + simpl. destruct (ascii_dec c d) as [->|ne].
      * rewrite IH. split; intros [after H]; exists after.
        -- now rewrite H.
        -- now inversion H.
      * split; [discriminate | intros [after H]; inversion H; subst; now elim ne].
Qed.

(** [contains] decides the occurrence of a substring. *)
Lemma contains_occurs (needle s : string) :
  contains needle s = true <-> exists before after, s = before ++ needle ++ after.
Proof.
  induction s as [|c s IH].
  - cbn [contains]. rewrite orb_false_r, prefix_app. split.
    + intros [after H]. exists "", after. exact H.
    + intros [before [after H]]. destruct before; [now exists after | discriminate].
  - cbn [contains]. rewrite orb_true_iff, prefix_app, IH. split.
    + intros [[after H] | [before [after H]]].
      * exists "", after. exact H.
      * exists (String c before), after. simpl. now rewrite H.
    + intros [before [after H]]. destruct before as [|d before].
      * left. now exists after.
      * right. exists before, after. simpl in H. now inversion H.
Qed.

Lemma replace_class_app (p : ascii -> bool) (f : ascii -> string) (a b : string) :
  replace_class p f (a ++ b) = replace_class p f a ++ replace_class p f b.
Proof.
  induction a as [|c a IH]; simpl; [reflexivity|].
  rewrite IH. destruct (p c); simpl; [|reflexivity].
  generalize (f c) as prefix.
  induction prefix as [|d prefix IHp]; simpl; [reflexivity | now rewrite IHp].
Qed.

Lemma string_app_length (a b : string) :
  String.length (a ++ b) = String.length a + String.length b.
Proof. induction a as [|c a IH]; simpl; [reflexivity | now rewrite IH]. Qed.

Lemma string_app_assoc (a b c : string) : (a ++ b) ++ c = a ++ b ++ c.
Proof. induction a as [|x a IH]; simpl; [reflexivity | now rewrite IH]. Qed.

(** Closes an equation between two renderings of one template. *)
Ltac same_text := simpl; rewrite ?string_app_assoc; reflexivity.

(** ** Identifier converter *)

Lemma convert_is_spec (name : string) :
  replace_class is_upper snake_letter name = Spec.snake_case name.
Proof.
  induction name as [|c name IH]; simpl; [reflexivity|].
  rewrite <- IH. unfold Spec.snake_char, snake_letter, toLowerCase_char.
  destruct (is_upper c); reflexivity.
Qed.

Lemma snake_case_length (name : string) :
  String.length (Spec.snake_case name) = String.length name + count is_upper name.
Proof.
  induction name as [|c name IH]; simpl; [reflexivity|].
  rewrite string_app_length, IH. unfold Spec.snake_char.
  destruct (is_upper c); simpl; lia.
Qed.

Lemma snake_case_fixed (name : string) :
  count is_upper name = 0 -> Spec.snake_case name = name.
Proof.
  induction name as [|c name IH]; simpl; [reflexivity|].
  unfold Spec.snake_char. destruct (is_upper c); simpl; [discriminate|].
  intros H. now rewrite IH.
Qed.

(** C8. The identifier converter is a total function: with [camelCase]
    true it returns the name unchanged; otherwise (false or absent) it
    replaces every letter of [A-Z] by an underscore followed by its lower
    case and leaves every other character, in its place: the result is the
    character-wise rewriting [Spec.snake_case], it distributes over
    concatenation, it grows by exactly one character per uppercase letter,
    a leading uppercase letter yields a leading underscore that is kept,
    and digits and underscores pass through.  The three examples of the
    specification hold. *)
Theorem convertToSnakeCase_spec :
  (forall name, convertToSnakeCase name (Some true) = name) /\
  (forall name, convertToSnakeCase name (Some false) = Spec.snake_case name) /\
  (forall name, convertToSnakeCase name None = Spec.snake_case name) /\
  (forall a b, convertToSnakeCase (a ++ b) (Some false)
               = convertToSnakeCase a (Some false) ++ convertToSnakeCase b (Some false)) /\
  (forall name, String.length (convertToSnakeCase name (Some false))
                = String.length name + count is_upper name) /\
  convertToSnakeCase "UserId" (Some false) = "_user_id" /\
  convertToSnakeCase "user_2fa_X" (Some false) = "user_2fa__x" /\
  convertToSnakeCase "userId" (Some false) = "user_id" /\
  convertToSnakeCase "userId" (Some true) = "userId" /\
  convertToSnakeCase "id" (Some false) = "id".
Proof.
  repeat split; try reflexivity.
  - intros name. apply convert_is_spec.
  - intros name. apply convert_is_spec.
  - intros a b. apply replace_class_app.
  - intros name. unfold convertToSnakeCase; simpl.
    rewrite convert_is_spec. apply snake_case_length.
Qed.

(** ** Primary key and id references *)

Lemma getType_returns (db : Provider) (adapter : Adapter.t)
      (options : BetterAuthOptions) (name : string) (field : Field.t) :
  exists fragment, getType (Some db) adapter options name field = Returned fragment.
Proof.
  unfold getType. destruct (Field.references field) as [r|]; [|eauto].
  destruct (String.eqb (Ref.field r) "id"); eauto.
Qed.

Lemma column_returns (db : Provider) (adapter : Adapter.t)
      (options : BetterAuthOptions) (entry : string * Field.t) :
  exists line, column (Some db) adapter options entry = Returned line.
Proof.
  destruct entry as [field attr]. unfold column.
  destruct (getType_returns db adapter options field attr) as [fragment ->].
  simpl. eauto.
Qed.

Lemma omap_returns {A B : Type} (f : A -> Outcome B) (xs : list A) :
  (forall x, exists y, f x = Returned y) ->
  exists ys, omap f xs = Returned ys /\ List.length ys = List.length xs.
Proof.
  intros total. induction xs as [|x xs [ys [IH len]]]; simpl.
  - exists []. split; reflexivity.
  - destruct (total x) as [y ->]. simpl. rewrite IH. simpl.
    exists (y :: ys). split; [reflexivity | simpl; now rewrite len].
Qed.

Lemma schema_returns (db : Provider) (adapter : Adapter.t)
      (options : BetterAuthOptions) (table : Table) :
  exists columns,
    List.length columns = List.length (fields table) /\
    schema db adapter options table =
      Returned (schema_template db
                  (getModelName (modelName table) (Adapter.options adapter))
                  (convertToSnakeCase
                     (getModelName (modelName table) (Adapter.options adapter))
                     (camelCase_of adapter))
                  (id_column options db) columns).
Proof.
  unfold schema.
  destruct (omap_returns (column (Some db) adapter options) (fields table)
              (column_returns db adapter options)) as [columns [-> len]].
  exists columns. split; [exact len | reflexivity].
Qed.

(** C7. Primary-key selection is total and a function of the backend and
    [useNumberId] alone: the [id] column of every emitted table is
    [Spec.primaryKey] of the two, whatever the table, its fields and the
    rest of the configuration; with [useNumberId] it is the serial key for
    pg and the auto-incrementing [int] key for sqlite and mysql, without it
    the [varchar] key of length 36 for mysql and the [text] key for sqlite
    and pg. *)
Theorem primary_key_selection (db : Provider) (options : BetterAuthOptions) :
  id_column options db = Spec.primaryKey db (useNumberId_of options) /\
  (forall adapter table, exists columns,
      schema db adapter options table =
        Returned (schema_template db
                    (getModelName (modelName table) (Adapter.options adapter))
                    (convertToSnakeCase
                       (getModelName (modelName table) (Adapter.options adapter))
                       (camelCase_of adapter))
                    (Spec.primaryKey db (useNumberId_of options)) columns)) /\
  Spec.primaryKey pg true = "serial(" ++ dq ++ "id" ++ dq ++ ").primaryKey()" /\
  Spec.primaryKey sqlite true = "int(" ++ dq ++ "id" ++ dq ++ ").autoincrement.primaryKey()" /\
  Spec.primaryKey mysql true = "int(" ++ dq ++ "id" ++ dq ++ ").autoincrement.primaryKey()" /\
  Spec.primaryKey mysql false = "varchar('id', { length: 36 }).primaryKey()" /\
  Spec.primaryKey sqlite false = "text('id').primaryKey()" /\
  Spec.primaryKey pg false = "text('id').primaryKey()".
Proof.
  assert (E : id_column options db = Spec.primaryKey db (useNumberId_of options)).
  { unfold id_column, Spec.primaryKey.
    destruct (useNumberId_of options), db; reflexivity. }
  split; [exact E|]. split; [|repeat split].
  intros adapter table.
  destruct (schema_returns db adapter options table) as [columns [_ H]].
  exists columns. now rewrite <- E.
Qed.

(** C2. A field whose [references.field] is ["id"] gets the fragment
    derived from the primary key, whatever its declared type, its [bigint]
    flag and its other attributes: with [useNumberId], [integer] for pg and
    sqlite and [int] for mysql; otherwise [varchar] of length 36 for mysql
    and [text] for sqlite and pg.  The scalar type map is not consulted. *)
Theorem reference_override (db : Provider) (adapter : Adapter.t)
        (options : BetterAuthOptions) (name : string) (field : Field.t)
        (r : Ref.t) :
  Field.references field = Some r ->
  Ref.field r = "id" ->
  getType (Some db) adapter options name field =
    Returned (Spec.id_reference db (useNumberId_of options)
                (convertToSnakeCase name (camelCase_of adapter))).
Proof.
  intros Hr Hid. unfold getType. rewrite Hr, Hid. simpl.
  unfold id_reference_type, Spec.id_reference. rewrite Hid.
  destruct (useNumberId_of options), db; reflexivity.
Qed.

Lemma reference_override_witness :
  getType (Some mysql) Scenario.mysql_adapter Scenario.empty_options "userId"
          (Field.mk TString None (Some true) (Some true) None
                    (Some (Ref.mk "user" "id" None)))
  = Returned "varchar('user_id', { length: 36 })".
Proof.
  apply (reference_override mysql Scenario.mysql_adapter Scenario.empty_options
           "userId" _ (Ref.mk "user" "id" None)); reflexivity.
Defined.

(** ** Import resolver *)

Lemma hasBigint_some (tables : BetterAuthDbSchema) :
  hasBigint tables = true <-> Spec.some_bigint tables.
Proof.
  unfold hasBigint, Spec.some_bigint. rewrite existsb_exists. split.
  - intros [[tableKey table] [Ht Hf]]. apply existsb_exists in Hf.
    destruct Hf as [[fieldKey field] [Hin Hb]]. simpl in *.
    exists tableKey, table, fieldKey, field. repeat split; try assumption.
    destruct (Field.bigint field) as [[|]|]; [reflexivity | discriminate | discriminate].
  - intros [tableKey [table [fieldKey [field [Ht [Hf Hb]]]]]].
    exists (tableKey, table). split; [exact Ht|].
    apply existsb_exists. exists (fieldKey, field). split; [exact Hf|].
    simpl. now rewrite Hb.
Qed.

(** C3. For every schema, backend and options the import line lists
    exactly the symbols of [Spec.import_list], in that order and joined by
    a comma and a space: the table constructor; [varchar, text] for mysql
    and [text] otherwise; [bigint] iff the backend is not sqlite and some
    field of some table has [bigint] true; [timestamp, boolean] iff the
    backend is not sqlite; [int] for mysql and [integer] otherwise; [serial]
    iff the backend is pg and [useNumberId] is set.  Blank candidates do not
    appear. *)
Theorem import_list_exact (db : Provider) (tables : BetterAuthDbSchema)
        (options : BetterAuthOptions) :
  (hasBigint tables = true <-> Spec.some_bigint tables) /\
  import_symbols db tables options
    = Spec.import_list db (hasBigint tables) (useNumberId_of options) /\
  generateImport db tables options
    = "import { "
        ++ join ", " (Spec.import_list db (hasBigint tables) (useNumberId_of options))
        ++ " } from " ++ dq ++ "drizzle-orm/" ++ provider_name db ++ "-core" ++ dq
        ++ ";" ++ nl /\
  Forall (fun symbol => symbol <> "")
         (Spec.import_list db (hasBigint tables) (useNumberId_of options)).
Proof.
  assert (E : import_symbols db tables options
              = Spec.import_list db (hasBigint tables) (useNumberId_of options)).
  { unfold import_symbols, import_candidates, Spec.import_list.
    destruct db, (hasBigint tables), (useNumberId_of options); reflexivity. }
  split; [apply hasBigint_some|]. split; [exact E|]. split.
  - unfold generateImport. now rewrite E.
  - destruct db, (hasBigint tables), (useNumberId_of options);
      repeat constructor; discriminate.
Qed.

(** C10. With [useNumberId] set, sqlite and mysql get the same
    primary-key fragment, built with the [int] constructor, while the import
    line of sqlite is always the one listing [sqliteTable], [text] and
    [integer]: [int] is not among the imported symbols. *)
Theorem sqlite_number_id_uses_unimported_int (options : BetterAuthOptions)
        (tables : BetterAuthDbSchema) :
  useNumberId_of options = true ->
  id_column options sqlite
    = "int(" ++ dq ++ "id" ++ dq ++ ").autoincrement.primaryKey()" /\
  id_column options mysql = id_column options sqlite /\
  import_symbols sqlite tables options = [ "sqliteTable"; "text"; "integer" ] /\
  ~ In "int" (import_symbols sqlite tables options) /\
  generateImport sqlite tables options
    = "import { sqliteTable, text, integer } from " ++ dq
        ++ "drizzle-orm/sqlite-core" ++ dq ++ ";" ++ nl.
Proof.
  intros U.
  assert (E : import_symbols sqlite tables options = [ "sqliteTable"; "text"; "integer" ]).
  { unfold import_symbols, import_candidates. rewrite U.
    destruct (hasBigint tables); reflexivity. }
  unfold id_column, generateImport. rewrite U, E.
  repeat split.
  simpl. intros [H | [H | [H | []]]]; discriminate.
Qed.

Lemma sqlite_number_id_witness :
  id_column (mkOptions (Some (mkAdvanced (Some (mkDatabase (Some true)))))) sqlite
    = "int(" ++ dq ++ "id" ++ dq ++ ").autoincrement.primaryKey()" /\
  ~ In "int" (import_symbols sqlite Scenario.user_schema
                (mkOptions (Some (mkAdvanced (Some (mkDatabase (Some true))))))).
Proof.
  destruct (sqlite_number_id_uses_unimported_int
              (mkOptions (Some (mkAdvanced (Some (mkDatabase (Some true))))))
              Scenario.user_schema eq_refl) as [H1 [_ [_ [H4 _]]]].
  split; [exact H1 | exact H4].
Defined.

(** ** Errors *)

Lemma emit_tables_returns (db : Provider) (adapter : Adapter.t)
      (options : BetterAuthOptions) (tables : BetterAuthDbSchema) (code : string) :
  exists text,
    emit_tables db adapter options tables code
    = (map (fun entry => EvTable (fst entry)) tables, Returned text).
Proof.
  revert code. induction tables as [|[tableKey table] rest IH]; intros code; simpl.
  - exists code. reflexivity.
  - destruct (schema_returns db adapter options table) as [columns [_ ->]].
    unfold bind, tell, lift; simpl.
    match goal with
    | |- context [emit_tables db adapter options rest ?c] =>
        destruct (IH c) as [text ->]
    end.
    exists text. reflexivity.
Qed.

Lemma generate_with_provider (w : World) (options : BetterAuthOptions)
      (file : option string) (adapter : Adapter.t) (db : Provider) :
  chain (Adapter.options adapter) provider = Some db ->
  exists text,
    emit_tables db adapter options (getAuthTables w options)
                (generateImport db (getAuthTables w options) options)
    = (map (fun entry => EvTable (fst entry)) (getAuthTables w options),
       Returned text) /\
    generateDrizzleSchema w options file adapter
    = ((EvExistsSync (or_default file default_file) :: EvGenerateImport
          :: map (fun entry => EvTable (fst entry)) (getAuthTables w options)
          ++ [EvFormat])%list,
       Returned (mkResult (prettier_format w text)
                          (or_default file default_file)
                          (existsSync w (or_default file default_file)))).
Proof.
  intros P. unfold generateDrizzleSchema. rewrite P.
  destruct (emit_tables_returns db adapter options (getAuthTables w options)
              (generateImport db (getAuthTables w options) options)) as [text E].
  exists text. split; [exact E|].
  unfold bind, tell, ret. rewrite E. reflexivity.
Qed.

Lemma outcome_cases (w : World) (options : BetterAuthOptions)
      (file : option string) (adapter : Adapter.t) :
  (exists r, snd (generateDrizzleSchema w options file adapter) = Returned r) \/
  snd (generateDrizzleSchema w options file adapter)
  = Thrown (mkError EntryGuard missing_provider_message).
Proof.
  destruct (chain (Adapter.options adapter) provider) as [db|] eqn:P.
  - destruct (generate_with_provider w options file adapter db P) as [text [_ ->]].
    left. eexists. reflexivity.
  - right. unfold generateDrizzleSchema. now rewrite P.
Qed.

(** On a schema whose fields have the six types of the cast and with a
    formatter that accepts the text, [generateDrizzleSchema] throws in one
    situation only.  When the
    adapter's provider is undefined it throws the missing-provider error at
    the entry guard with an empty log: no probe, no import resolution, no
    table emission, no formatting has happened.  When the provider is
    sqlite, mysql or pg it returns a result, after the probe of the file
    path, the import resolution, one emission per table and the formatting,
    with the file name defaulted and the overwrite flag read from the
    probe. *)
Theorem single_error_kind (w : World) (options : BetterAuthOptions)
        (file : option string) (adapter : Adapter.t) :
  match chain (Adapter.options adapter) provider with
  | None =>
      generateDrizzleSchema w options file adapter
      = ([], Thrown (mkError EntryGuard missing_provider_message))
  | Some db =>
      exists r,
        generateDrizzleSchema w options file adapter
        = ((EvExistsSync (or_default file default_file) :: EvGenerateImport
              :: map (fun entry => EvTable (fst entry)) (getAuthTables w options)
              ++ [EvFormat])%list,
           Returned r) /\
        fileName r = or_default file default_file /\
        overwrite r = existsSync w (fileName r)
  end.
Proof.
  destruct (chain (Adapter.options adapter) provider) as [db|] eqn:P.
  - destruct (generate_with_provider w options file adapter db P) as [text [_ ->]].
    eexists. split; [reflexivity|]. split; reflexivity.
  - unfold generateDrizzleSchema. now rewrite P.
Qed.

(** C9. The provider check inside [getType] cannot fire once the entry
    guard has passed: called with a defined provider the type mapper returns
    a fragment for every field, and no run of [generateDrizzleSchema],
    whatever the schema and the configuration, ends in the error of the
    inner guard; a run returns or throws at the entry guard. *)
Theorem inner_guard_unreachable :
  (forall db adapter options name field,
      exists fragment,
        getType (Some db) adapter options name field = Returned fragment) /\
  (forall db adapter options table,
      exists text, schema db adapter options table = Returned text) /\
  (forall w options file adapter,
      (exists r, snd (generateDrizzleSchema w options file adapter) = Returned r) \/
      snd (generateDrizzleSchema w options file adapter)
      = Thrown (mkError EntryGuard missing_provider_message)).
Proof.
  split; [exact getType_returns|]. split.
  - intros db adapter options table.
    destruct (schema_returns db adapter options table) as [columns [_ ->]]. eauto.
  - intros w options file adapter.
    generalize (outcome_cases w options file adapter). tauto.
Qed.

(** ** The end-to-end scenario *)

Lemma scenario_run (w : World) :
  getAuthTables w Scenario.empty_options = Scenario.user_schema ->
  generateDrizzleSchema w Scenario.empty_options None Scenario.pg_adapter
  = ([EvExistsSync default_file; EvGenerateImport; EvTable "user"; EvFormat],
     Returned (mkResult (prettier_format w Scenario.raw_text) default_file
                        (existsSync w default_file))).
Proof.
  intros T. unfold generateDrizzleSchema. rewrite T. reflexivity.
Qed.

(** C4, as the specification states it, fails: for the scenario's schema
    on pg with empty options, no file on disk and the text left as the
    generator built it, the output does not contain the import line
    [import { pgTable, text } from "drizzle-orm/pg-core";]. *)
Lemma scenario_import_line_absent : ~ Scenario.as_stated Scenario.plain_world.
Proof.
  intros [log [r [run [import _]]]].
  rewrite (scenario_run Scenario.plain_world eq_refl) in run.
  inversion run; subst r. vm_compute in import. discriminate.
Qed.

(** The expected import line is absent under every formatter that only
    changes the layout. *)
Lemma scenario_import_line_absent_any_layout (w : World) :
  getAuthTables w Scenario.empty_options = Scenario.user_schema ->
  (forall text, strip_ws (prettier_format w text) = strip_ws text) ->
  exists log r,
    generateDrizzleSchema w Scenario.empty_options None Scenario.pg_adapter
    = (log, Returned r) /\
    contains (strip_ws Scenario.expected_import_line) (strip_ws (code r)) = false.
Proof.
  intros T layout. rewrite (scenario_run w T).
  do 2 eexists. split; [reflexivity|]. simpl code. rewrite layout. reflexivity.
Qed.

(** The scenario as stated fails as well when the formatter lays the text
    out as prettier does. *)
Lemma scenario_import_line_absent_pretty : ~ Scenario.as_stated Layout.pretty_world.
Proof.
  intros [log [r [run [import _]]]].
  rewrite (scenario_run Layout.pretty_world eq_refl) in run.
  inversion run; subst r. vm_compute in import. discriminate.
Qed.

(** C4, amended.  For the scenario's schema on pg with empty options, no
    file at the default path and a formatter that keeps the text up to
    white space, quote style and trailing commas, the generator returns a
    result whose code contains, up to those, the import line
    [import { pgTable, text, timestamp, boolean, integer } from
    "drizzle-orm/pg-core";] and the declaration of the scenario, and does
    not contain, even up to those, the import line with [pgTable] and [text]
    alone; the file name is [./auth-schema.ts] and overwrite is false. *)
Theorem scenario_end_to_end (w : World) :
  getAuthTables w Scenario.empty_options = Scenario.user_schema ->
  existsSync w default_file = false ->
  up_to_layout (prettier_format w Scenario.raw_text) = up_to_layout Scenario.raw_text ->
  exists log r,
    generateDrizzleSchema w Scenario.empty_options None Scenario.pg_adapter
    = (log, Returned r) /\
    contains (up_to_layout Scenario.written_import_line) (up_to_layout (code r)) = true /\
    contains (up_to_layout Scenario.expected_declaration) (up_to_layout (code r)) = true /\
    contains (up_to_layout Scenario.expected_import_line) (up_to_layout (code r)) = false /\
    fileName r = "./auth-schema.ts" /\
    overwrite r = false.
Proof.
  intros T probe layout. rewrite (scenario_run w T), probe.
  do 2 eexists. split; [reflexivity|]. cbn [code fileName overwrite].
  rewrite layout. repeat split; vm_compute; reflexivity.
Qed.

Lemma scenario_end_to_end_witness :
  exists log r,
    generateDrizzleSchema Layout.pretty_world Scenario.empty_options None
                          Scenario.pg_adapter = (log, Returned r) /\
    contains (up_to_layout Scenario.written_import_line) (up_to_layout (code r)) = true /\
    contains (up_to_layout Scenario.expected_declaration) (up_to_layout (code r)) = true /\
    contains (up_to_layout Scenario.expected_import_line) (up_to_layout (code r)) = false /\
    fileName r = "./auth-schema.ts" /\
    overwrite r = false.
Proof.
  apply (scenario_end_to_end Layout.pretty_world); vm_compute; reflexivity.
Defined.

(** ** Array columns *)

(** C5, as the specification states it, fails: on mysql a unique field of
    type [string[]] gets [text('tags').array()], while the scalar mapping of
    a unique string is [varchar('tags', { length: 255 })]. *)
Lemma mysql_unique_string_array :
  getType (Some mysql) Scenario.mysql_adapter Scenario.empty_options "tags"
          Scenario.tags_field
  = Returned "text('tags').array()" /\
  array_of (getType (Some mysql) Scenario.mysql_adapter Scenario.empty_options "tags"
              (with_type Scenario.tags_field
                 (Spec.element_type (Field.type Scenario.tags_field))))
  = Returned "varchar('tags', { length: 255 }).array()" /\
  getType (Some mysql) Scenario.mysql_adapter Scenario.empty_options "tags"
          Scenario.tags_field
  <> array_of (getType (Some mysql) Scenario.mysql_adapter Scenario.empty_options "tags"
                 (with_type Scenario.tags_field
                    (Spec.element_type (Field.type Scenario.tags_field)))).
Proof.
  split; [reflexivity|]. split; [reflexivity|]. discriminate.
Qed.

(** C5, amended.  For a field of type [string[]] or [number[]] that does
    not reference an [id], the fragment is the scalar mapping of the element
    type for the same field with the array modifier appended, on all three
    backends, except for [string[]] on mysql: there the fragment is always
    [text(name).array()] and the [varchar] rules of unique and referencing
    strings are not applied.  A field that references an [id] takes the
    id-reference fragment of its element type, with no array modifier. *)
Theorem array_fragments (db : Provider) (adapter : Adapter.t)
        (options : BetterAuthOptions) (name : string) (field : Field.t) :
  Field.type field = TStringArray \/ Field.type field = TNumberArray ->
  if references_id field then
    getType (Some db) adapter options name field
    = getType (Some db) adapter options name
              (with_type field (Spec.element_type (Field.type field)))
  else
    match Field.type field, db with
    | TStringArray, mysql =>
        getType (Some db) adapter options name field
        = Returned ("text('" ++ convertToSnakeCase name (camelCase_of adapter)
                             ++ "').array()")
    | _, _ =>
        getType (Some db) adapter options name field
        = array_of (getType (Some db) adapter options name
                      (with_type field (Spec.element_type (Field.type field))))
    end.
Proof.
  intros array. unfold references_id, getType, with_type.
  destruct field as [ty rq un bg dv rf]; simpl in *.
  destruct rf as [r|]; [destruct (String.eqb (Ref.field r) "id")|];
    destruct array; subst ty; simpl; try reflexivity;
    destruct db; try same_text;
    destruct (truthy bg); same_text.
Qed.

Lemma array_fragments_witness :
  getType (Some pg) Scenario.pg_adapter Scenario.empty_options "backupCodes"
          (Field.mk TNumberArray None None (Some true) None None)
  = Returned "bigint('backup_codes', { mode: 'number' }).array()".
Proof.
  exact (array_fragments pg Scenario.pg_adapter Scenario.empty_options "backupCodes"
           (Field.mk TNumberArray None None (Some true) None None)
           (or_intror eq_refl)).
Defined.

(** ** Default values *)

(** A default value that is truthy gets its modifier: by function, quoted
    or plain. *)
Lemma default_modifier_truthy (v : DefaultValue) :
  js_truthy v = true ->
  default_modifier (Some v) =
    match v with
    | DFunction source => ".$defaultFn(" ++ source ++ ")"
    | DString s => ".default(" ++ dq ++ s ++ dq ++ ")"
    | other => ".default(" ++ js_render other ++ ")"
    end.
Proof.
  intros T. unfold default_modifier. rewrite T. destruct v; reflexivity.
Qed.

(** The modifiers of a column line follow the base fragment in the fixed
    order: default, not null, unique, references. *)
Lemma column_composition (db : Provider) (adapter : Adapter.t)
      (options : BetterAuthOptions) (field : string) (attr : Field.t) :
  exists base,
    getType (Some db) adapter options field attr = Returned base /\
    column (Some db) adapter options (field, attr)
    = Returned (field ++ ": " ++ (base ++ default_modifier (Field.defaultValue attr))
                  ++ notNull_modifier attr ++ unique_modifier attr
                  ++ references_modifier adapter attr).
Proof.
  destruct (getType_returns db adapter options field attr) as [base E].
  exists base. split; [exact E|]. unfold column. now rewrite E.
Qed.

(** C6 at a field whose default value is present and is [false]: the
    column line carries no default modifier. *)
Theorem false_default_dropped :
  Field.defaultValue Scenario.banned_field = Some (DBoolean false) /\
  column (Some pg) Scenario.pg_adapter Scenario.empty_options
         ("banned", Scenario.banned_field)
  = Returned "banned: boolean('banned')" /\
  column (Some pg) Scenario.pg_adapter Scenario.empty_options
         ("banned", Field.mk TBoolean None None None (Some (DBoolean true)) None)
  = Returned "banned: boolean('banned').default(true)".
Proof.
  split; [reflexivity|]. split; reflexivity.
Qed.

(* ================================================================== *)
(** * Further properties of the generator *)

(** ** Identifiers *)

Lemma count_app (p : ascii -> bool) (a b : string) :
  count p (a ++ b) = count p a + count p b.
Proof.
  induction a as [|c a IH]; simpl; [reflexivity | rewrite IH; lia].
Qed.

Lemma snake_char_lower (c : ascii) : count is_upper (Spec.snake_char c) = 0.
Proof. destruct c as [[] [] [] [] [] [] [] []]; reflexivity. Qed.

Lemma snake_case_lower (name : string) : count is_upper (Spec.snake_case name) = 0.
Proof.
  induction name as [|c name IH]; simpl; [reflexivity|].
  now rewrite count_app, snake_char_lower, IH.
Qed.

(** The converter never leaves a letter of [A-Z] in a snake-case name, and
    converting twice is converting once, whatever the [camelCase] flag. *)
Theorem convertToSnakeCase_idempotent (name : string) (camelCase : option bool) :
  convertToSnakeCase (convertToSnakeCase name camelCase) camelCase
  = convertToSnakeCase name camelCase /\
  count is_upper (convertToSnakeCase name (Some false)) = 0 /\
  count is_upper (convertToSnakeCase name None) = 0.
Proof.
  assert (L : count is_upper (replace_class is_upper snake_letter name) = 0)
    by (rewrite convert_is_spec; apply snake_case_lower).
  split; [|split; exact L].
  unfold convertToSnakeCase. destruct (truthy camelCase); [reflexivity|].
  rewrite (convert_is_spec (replace_class is_upper snake_letter name)).
  now apply snake_case_fixed.
Qed.

(** Pluralising a model name and converting it to snake case commute: the
    quoted table name of a pluralised model is the converted model name with
    an [s] appended. *)
Theorem plural_commutes_with_snake_case (modelName : string)
        (options : option AdapterOptions) (camelCase : option bool) :
  convertToSnakeCase (getModelName modelName options) camelCase
  = getModelName (convertToSnakeCase modelName camelCase) options.
Proof.
  unfold getModelName, convertToSnakeCase.
  destruct (truthy (chain options usePlural)), (truthy camelCase); try reflexivity.
  now rewrite replace_class_app.
Qed.

(** ** References *)

(** A reference to a model is written with the identifier under which the
    table of that model is exported: for a table whose [modelName] is the
    referenced model, the binding of its declaration and the target of the
    [references] modifier are the same name, pluralised or not. *)
Theorem reference_names_exported_binding (db : Provider) (adapter : Adapter.t)
        (options : BetterAuthOptions) (table : Table) (attr : Field.t) (r : Ref.t) :
  Field.references attr = Some r ->
  Ref.model r = modelName table ->
  exists exported quoted columns,
    schema db adapter options table
    = Returned (schema_template db exported quoted (id_column options db) columns) /\
    references_modifier adapter attr
    = ".references(()=> " ++ exported ++ "." ++ Ref.field r
        ++ ", { onDelete: '" ++ delete_policy r ++ "' })".
Proof.
  intros Hr Hm.
  destruct (schema_returns db adapter options table) as [columns [_ E]].
  do 3 eexists. split; [exact E|].
  unfold references_modifier, delete_policy, or_default. rewrite Hr, Hm.
  destruct (Ref.onDelete r) as [[|c policy]|]; reflexivity.
Qed.

Lemma reference_names_exported_binding_witness :
  exists exported quoted columns,
    schema mysql (Adapter.mk (Some (mkAdapterOptions (Some mysql) None (Some true))))
           Scenario.empty_options (mkTable "user" [])
    = Returned (schema_template mysql exported quoted
                  (id_column Scenario.empty_options mysql) columns) /\
    references_modifier (Adapter.mk (Some (mkAdapterOptions (Some mysql) None (Some true))))
                        (Field.mk TString None None None None
                                  (Some (Ref.mk "user" "id" None)))
    = ".references(()=> " ++ exported ++ ".id, { onDelete: 'cascade' })".
Proof.
  exact (reference_names_exported_binding mysql
           (Adapter.mk (Some (mkAdapterOptions (Some mysql) None (Some true))))
           Scenario.empty_options (mkTable "user" [])
           (Field.mk TString None None None None (Some (Ref.mk "user" "id" None)))
           (Ref.mk "user" "id" None) eq_refl eq_refl).
Defined.

(** The column line of a referencing field ends with the delete policy of
    the reference: the declared [onDelete], and [cascade] when it is absent
    or the empty string. *)
Theorem column_ends_with_delete_policy (db : Provider) (adapter : Adapter.t)
        (options : BetterAuthOptions) (field : string) (attr : Field.t) (r : Ref.t) :
  Field.references attr = Some r ->
  exists before,
    column (Some db) adapter options (field, attr)
    = Returned (before ++ ", { onDelete: '" ++ delete_policy r ++ "' })").
Proof.
  intros Hr.
  destruct (column_composition db adapter options field attr) as [base [_ ->]].
  unfold references_modifier, delete_policy, or_default. rewrite Hr.
  exists (field ++ ": " ++ (base ++ default_modifier (Field.defaultValue attr))
            ++ notNull_modifier attr ++ unique_modifier attr
            ++ ".references(()=> " ++ getModelName (Ref.model r) (Adapter.options adapter)
            ++ "." ++ Ref.field r).
  f_equal.
  destruct (Ref.onDelete r) as [[|c policy]|];
    rewrite ?string_app_assoc; simpl; rewrite ?string_app_assoc; reflexivity.
Qed.

Lemma column_ends_with_delete_policy_witness :
  exists before,
    column (Some pg) Scenario.pg_adapter Scenario.empty_options
           ("userId", Field.mk TString (Some true) None None None
                               (Some (Ref.mk "user" "id" (Some ""))))
    = Returned (before ++ ", { onDelete: 'cascade' })").
Proof.
  exact (column_ends_with_delete_policy pg Scenario.pg_adapter Scenario.empty_options
           "userId"
           (Field.mk TString (Some true) None None None
                     (Some (Ref.mk "user" "id" (Some ""))))
           (Ref.mk "user" "id" (Some "")) eq_refl).
Defined.

(** ** Imports against the columns that use them *)

Lemma bigint_field_found (tables : BetterAuthDbSchema) (tableKey : string)
      (table : Table) (fieldKey : string) (field : Field.t) :
  In (tableKey, table) tables ->
  In (fieldKey, field) (fields table) ->
  truthy (Field.bigint field) = true ->
  hasBigint tables = true.
Proof.
  intros Ht Hf B. unfold hasBigint. apply existsb_exists.
  exists (tableKey, table). split; [exact Ht|].
  apply existsb_exists. exists (fieldKey, field). split; [exact Hf | exact B].
Qed.

(** Finds a name in a list written out. *)
Ltac listed := simpl; solve [repeat first [left; reflexivity | right]].

(** Every column constructor a field of the schema is mapped to is imported:
    for each field of each table and each backend, the constructor of the
    fragment [getType] returns is a name of the import line. *)
Theorem field_constructors_imported (db : Provider) (adapter : Adapter.t)
        (options : BetterAuthOptions) (tables : BetterAuthDbSchema)
        (tableKey : string) (table : Table) (fieldKey : string) (field : Field.t) :
  In (tableKey, table) tables ->
  In (fieldKey, field) (fields table) ->
  exists fragment,
    getType (Some db) adapter options fieldKey field = Returned fragment /\
    In (constructor_of fragment) (imported_names db tables options).
Proof.
  intros Ht Hf.
  pose proof (bigint_field_found tables tableKey table fieldKey field Ht Hf) as HB.
  unfold getType, imported_names, import_symbols, import_candidates,
    id_reference_type, typeMap.
  destruct field as [ty rq un bg dv rf]; simpl in HB |- *.
  revert HB.
  destruct (hasBigint tables), (useNumberId_of options), db; intros HB;
    match goal with
    | |- context [flat_map ?f ?l] =>
        let names := eval vm_compute in (flat_map f l) in
        change (flat_map f l) with names
    end;
    destruct (truthy bg);
    try (specialize (HB eq_refl); discriminate);
    (destruct rf as [r|];
     [destruct (String.eqb (Ref.field r) "id"); [destruct (is_empty (Ref.field r))|]|]);
    destruct ty; try destruct (truthy un);
    (eexists; split; [reflexivity | listed]).
Qed.

Lemma field_constructors_imported_witness :
  exists fragment,
    getType (Some pg) Scenario.pg_adapter Scenario.empty_options "name"
            Scenario.name_field = Returned fragment /\
    In (constructor_of fragment)
       (imported_names pg Scenario.user_schema Scenario.empty_options).
Proof.
  apply (field_constructors_imported pg Scenario.pg_adapter Scenario.empty_options
           Scenario.user_schema "user" (mkTable "user" [ ("name", Scenario.name_field) ])
           "name" Scenario.name_field); simpl; left; reflexivity.
Defined.

(** The constructor of the primary-key column is imported in every
    configuration but one: sqlite with [useNumberId], where the key is built
    with [int] and the import line has [integer]. *)
Theorem id_constructor_imported (db : Provider) (tables : BetterAuthDbSchema)
        (options : BetterAuthOptions) :
  In (constructor_of (id_column options db)) (imported_names db tables options)
  <-> ~ (db = sqlite /\ useNumberId_of options = true).
Proof.
  unfold id_column, imported_names, import_symbols, import_candidates.
  destruct (useNumberId_of options), db, (hasBigint tables);
    (split;
     [ intros H; try (intros [D U]; discriminate);
       simpl in H; repeat (destruct H as [H|H]; try discriminate); contradiction
     | intros N; try (exfalso; apply N; split; reflexivity); listed ]).
Qed.

(** The import line of sqlite is the same for every schema and every
    option: neither [bigint] fields nor [useNumberId] add a name. *)
Theorem sqlite_import_constant (tables : BetterAuthDbSchema)
        (options : BetterAuthOptions) :
  generateImport sqlite tables options
  = "import { sqliteTable, text, integer } from " ++ dq
      ++ "drizzle-orm/sqlite-core" ++ dq ++ ";" ++ nl /\
  imported_names sqlite tables options = [ "sqliteTable"; "text"; "integer" ].
Proof.
  unfold generateImport, imported_names, import_symbols, import_candidates.
  destruct (hasBigint tables), (useNumberId_of options); split; reflexivity.
Qed.

(** ** The shape of the generated text *)

Lemma string_app_nil_r (s : string) : s ++ "" = s.
Proof. induction s as [|c s IH]; simpl; [reflexivity | now rewrite IH]. Qed.

Lemma prefix_of_app (a b c : string) : String.prefix (a ++ b) (a ++ b ++ c) = true.
Proof. apply prefix_app. exists c. symmetry. apply string_app_assoc. Qed.

Lemma omap_pointwise {A B : Type} (f : A -> Outcome B) (xs : list A) :
  (forall x, exists y, f x = Returned y) ->
  exists ys, omap f xs = Returned ys /\ Forall2 (fun x y => f x = Returned y) xs ys.
Proof.
  intros total. induction xs as [|x xs [ys [IH each]]]; simpl.
  - exists []. split; [reflexivity | constructor].
  - destruct (total x) as [y E]. rewrite E. simpl. rewrite IH. simpl.
    exists (y :: ys). split; [reflexivity | constructor; assumption].
Qed.

Lemma emit_tables_blocks (db : Provider) (adapter : Adapter.t)
      (options : BetterAuthOptions) (tables : BetterAuthDbSchema) (code : string) :
  exists declarations,
    Forall2 (fun entry text => schema db adapter options (snd entry) = Returned text)
            tables declarations /\
    emit_tables db adapter options tables code
    = (map (fun entry => EvTable (fst entry)) tables,
       Returned (code ++ table_blocks declarations)).
Proof.
  revert code. induction tables as [|[tableKey table] rest IH]; intros code.
  - exists []. split; [constructor|]. simpl. now rewrite string_app_nil_r.
  - assert (exists text, schema db adapter options table = Returned text) as [text E]
      by (destruct (schema_returns db adapter options table) as [columns [_ E]]; eauto).
    cbn [emit_tables]. rewrite E. unfold bind, tell, lift.
    destruct (IH (code ++ nl ++ text ++ nl)) as [declarations [each ->]].
    exists (text :: declarations). split; [constructor; assumption|].
    unfold table_blocks. cbn [fold_right]. rewrite !string_app_assoc. reflexivity.
Qed.

(** With a provider configured, the text handed to the formatter is the
    import line followed, for each table of the schema in enumeration order,
    by a line feed, the table's declaration and a line feed; nothing else is
    written and no table is skipped or reordered. *)
Theorem generated_text_structure (w : World) (options : BetterAuthOptions)
        (file : option string) (adapter : Adapter.t) (db : Provider) :
  chain (Adapter.options adapter) provider = Some db ->
  exists declarations log r,
    Forall2 (fun entry text => schema db adapter options (snd entry) = Returned text)
            (getAuthTables w options) declarations /\
    generateDrizzleSchema w options file adapter = (log, Returned r) /\
    code r = prettier_format w
               (generateImport db (getAuthTables w options) options
                  ++ table_blocks declarations).
Proof.
  intros P.
  destruct (emit_tables_blocks db adapter options (getAuthTables w options)
              (generateImport db (getAuthTables w options) options))
    as [declarations [each E]].
  exists declarations. unfold generateDrizzleSchema. rewrite P.
  unfold bind, tell, ret. rewrite E. simpl.
  do 2 eexists. split; [exact each|]. split; reflexivity.
Qed.

Lemma generated_text_structure_witness :
  exists declarations log r,
    Forall2 (fun entry text =>
               schema pg Scenario.pg_adapter Scenario.empty_options (snd entry)
               = Returned text)
            Scenario.user_schema declarations /\
    generateDrizzleSchema Scenario.plain_world Scenario.empty_options None
                          Scenario.pg_adapter = (log, Returned r) /\
    code r = generateImport pg Scenario.user_schema Scenario.empty_options
               ++ table_blocks declarations.
Proof.
  exact (generated_text_structure Scenario.plain_world Scenario.empty_options None
           Scenario.pg_adapter pg eq_refl).
Defined.

(** A schema without tables yields the formatted import line alone, after
    the probe of the file path and with no table emitted. *)
Theorem empty_schema_only_import (w : World) (options : BetterAuthOptions)
        (file : option string) (adapter : Adapter.t) (db : Provider) :
  chain (Adapter.options adapter) provider = Some db ->
  getAuthTables w options = [] ->
  generateDrizzleSchema w options file adapter
  = ([EvExistsSync (or_default file default_file); EvGenerateImport; EvFormat],
     Returned (mkResult (prettier_format w (generateImport db [] options))
                        (or_default file default_file)
                        (existsSync w (or_default file default_file)))) /\
  hasBigint [] = false.
Proof.
  intros P T. unfold generateDrizzleSchema. rewrite P, T. split; reflexivity.
Qed.

Lemma empty_schema_only_import_witness :
  generateDrizzleSchema (mkWorld (fun _ => []) (fun _ => true) (fun text => text))
                        Scenario.empty_options (Some "") Scenario.mysql_adapter
  = ([EvExistsSync "./auth-schema.ts"; EvGenerateImport; EvFormat],
     Returned (mkResult
                 ("import { mysqlTable, varchar, text, timestamp, boolean, int } from "
                    ++ dq ++ "drizzle-orm/mysql-core" ++ dq ++ ";" ++ nl)
                 "./auth-schema.ts" true)).
Proof.
  exact (proj1 (empty_schema_only_import
                  (mkWorld (fun _ => []) (fun _ => true) (fun text => text))
                  Scenario.empty_options (Some "") Scenario.mysql_adapter mysql
                  eq_refl eq_refl)).
Defined.

(** The declaration of a table has one column line per field, in the order
    of the fields, and each line starts with the field's own key, not
    converted, followed by a colon. *)
Theorem columns_follow_fields (db : Provider) (adapter : Adapter.t)
        (options : BetterAuthOptions) (table : Table) :
  exists columns,
    schema db adapter options table
    = Returned (schema_template db
                  (getModelName (modelName table) (Adapter.options adapter))
                  (convertToSnakeCase
                     (getModelName (modelName table) (Adapter.options adapter))
                     (camelCase_of adapter))
                  (id_column options db) columns) /\
    Forall2 (fun entry line =>
               column (Some db) adapter options entry = Returned line /\
               String.prefix (fst entry ++ ": ") line = true)
            (fields table) columns.
Proof.
  destruct (omap_pointwise (column (Some db) adapter options) (fields table)
              (column_returns db adapter options)) as [columns [E each]].
  exists columns. split.
  - unfold schema. now rewrite E.
  - revert each. apply Forall2_impl. intros [field attr] line L.
    split; [exact L|].
    destruct (column_composition db adapter options field attr) as [base [_ C]].
    rewrite C in L. injection L as <-.
    apply (prefix_of_app field ": ").
Qed.

(** ** Foreign keys and defaults *)

(** Without [useNumberId], a column that references an [id] is declared
    with the constructor and the arguments of the primary key it points to:
    [text] on sqlite and pg, [varchar] of length 36 on mysql. *)
Theorem foreign_key_matches_primary_key (db : Provider) (adapter : Adapter.t)
        (options : BetterAuthOptions) (name : string) (field : Field.t) (r : Ref.t) :
  useNumberId_of options = false ->
  Field.references field = Some r ->
  Ref.field r = "id" ->
  exists constructor arguments,
    id_column options db = constructor ++ "('id'" ++ arguments ++ ").primaryKey()" /\
    getType (Some db) adapter options name field
    = Returned (constructor ++ "('" ++ convertToSnakeCase name (camelCase_of adapter)
                  ++ "'" ++ arguments ++ ")").
Proof.
  intros U Hr Hid. unfold getType, id_reference_type, id_column.
  rewrite Hr, Hid, U. simpl.
  destruct db;
    [ exists "text", "" | exists "varchar", ", { length: 36 }" | exists "text", "" ];
    split; reflexivity.
Qed.

Lemma foreign_key_matches_primary_key_witness :
  exists constructor arguments,
    id_column Scenario.empty_options mysql
    = constructor ++ "('id'" ++ arguments ++ ").primaryKey()" /\
    getType (Some mysql) Scenario.mysql_adapter Scenario.empty_options "userId"
            (Field.mk TString (Some true) None None None
                      (Some (Ref.mk "user" "id" None)))
    = Returned (constructor ++ "('user_id'" ++ arguments ++ ")").
Proof.
  exact (foreign_key_matches_primary_key mysql Scenario.mysql_adapter
           Scenario.empty_options "userId"
           (Field.mk TString (Some true) None None None
                     (Some (Ref.mk "user" "id" None)))
           (Ref.mk "user" "id" None) eq_refl eq_refl eq_refl).
Defined.

Lemma getType_ignores_default (databaseType : option Provider) (adapter : Adapter.t)
      (options : BetterAuthOptions) (name : string) (field : Field.t)
      (d : option DefaultValue) :
  getType databaseType adapter options name (with_default field d)
  = getType databaseType adapter options name field.
Proof.
  unfold getType, with_default. destruct databaseType as [db|]; [|reflexivity].
  destruct field as [ty rq un bg dv rf]; simpl.
  destruct rf as [r|]; [destruct (String.eqb (Ref.field r) "id")|];
    try reflexivity; destruct ty, db; reflexivity.
Qed.

Lemma default_modifier_nonempty (v : DefaultValue) :
  js_truthy v = true -> 0 < String.length (default_modifier (Some v)).
Proof.
  intros T. unfold default_modifier. rewrite T.
  destruct v; simpl; lia.
Qed.

Lemma column_without_default (db : Provider) (adapter : Adapter.t)
      (options : BetterAuthOptions) (field : string) (attr : Field.t) :
  exists base,
    column (Some db) adapter options (field, attr)
    = Returned (field ++ ": " ++ (base ++ default_modifier (Field.defaultValue attr))
                  ++ notNull_modifier attr ++ unique_modifier attr
                  ++ references_modifier adapter attr) /\
    column (Some db) adapter options (field, with_default attr None)
    = Returned (field ++ ": " ++ (base ++ "")
                  ++ notNull_modifier attr ++ unique_modifier attr
                  ++ references_modifier adapter attr).
Proof.
  destruct (column_composition db adapter options field attr) as [base [G C]].
  exists base. split; [exact C|].
  unfold column. rewrite getType_ignores_default, G.
  destruct attr as [ty rq un bg dv rf]; reflexivity.
Qed.

(** A default value that is present is left out of the column line exactly
    when it is falsy: the line of the field equals the line of the same
    field declared without a default if and only if the value is falsy. *)
Theorem falsy_default_is_no_default (db : Provider) (adapter : Adapter.t)
        (options : BetterAuthOptions) (field : string) (attr : Field.t)
        (v : DefaultValue) :
  Field.defaultValue attr = Some v ->
  column (Some db) adapter options (field, attr)
  = column (Some db) adapter options (field, with_default attr None)
  <-> js_truthy v = false.
Proof.
  intros D.
  destruct (column_without_default db adapter options field attr) as [base [-> ->]].
  rewrite D. split.
  - intros E. destruct (js_truthy v) eqn:T; [|reflexivity].
    pose proof (default_modifier_nonempty v T) as L.
    revert L E. generalize (default_modifier (Some v)) as modifier.
    intros modifier L E.
    injection E as E. apply (f_equal String.length) in E.
    repeat (rewrite !string_app_length in E; simpl in E). lia.
  - intros F. unfold default_modifier. now rewrite F.
Qed.

Lemma falsy_default_is_no_default_witness :
  column (Some mysql) Scenario.mysql_adapter Scenario.empty_options
         ("score", Field.mk TNumber (Some true) None None (Some (DNumber NaN)) None)
  = Returned "score: int('score').notNull()".
Proof.
  exact (proj2 (falsy_default_is_no_default mysql Scenario.mysql_adapter
                  Scenario.empty_options "score"
                  (Field.mk TNumber (Some true) None None (Some (DNumber NaN)) None)
                  (DNumber NaN) eq_refl) eq_refl).
Defined.

(** ** Column names *)

(** Proposes one constructor and one tail for a fragment. *)
Ltac fragment_is c r := exists c, r; split; [reflexivity | split; listed].

Ltac fragment_shape :=
  first
    [ fragment_is "text" ")"
    | fragment_is "text" ").array()"
    | fragment_is "varchar" ", { length: 255 })"
    | fragment_is "varchar" ", { length: 36 })"
    | fragment_is "integer" ")"
    | fragment_is "integer" ").array()"
    | fragment_is "integer" ", { mode: 'boolean' })"
    | fragment_is "integer" ", { mode: 'timestamp' })"
    | fragment_is "int" ")"
    | fragment_is "int" ").array()"
    | fragment_is "boolean" ")"
    | fragment_is "timestamp" ")"
    | fragment_is "bigint" ", { mode: 'number' })"
    | fragment_is "bigint" ", { mode: 'number' }).array()" ].

(** Every fragment of the type mapper is a call of one of seven column
    constructors whose first argument is the converted field key in single
    quotes: the database column is named by [convertToSnakeCase], and the
    key itself is never passed unconverted unless [camelCase] is set. *)
Theorem fragment_names_converted_column (db : Provider) (adapter : Adapter.t)
        (options : BetterAuthOptions) (name : string) (field : Field.t) :
  exists constructor tail,
    getType (Some db) adapter options name field
    = Returned (constructor ++ "('" ++ convertToSnakeCase name (camelCase_of adapter)
                  ++ "'" ++ tail) /\
    In constructor
       [ "text"; "varchar"; "integer"; "int"; "boolean"; "timestamp"; "bigint" ] /\
    In tail
       [ ")"; ").array()"; ", { length: 255 })"; ", { length: 36 })";
         ", { mode: 'boolean' })"; ", { mode: 'timestamp' })";
         ", { mode: 'number' })"; ", { mode: 'number' }).array()" ].
Proof.
  unfold getType, id_reference_type, typeMap.
  destruct field as [ty rq un bg dv rf]; simpl.
  generalize (convertToSnakeCase name (camelCase_of adapter)) as column_name.
  intros column_name.
  destruct rf as [r|];
    [destruct (String.eqb (Ref.field r) "id");
     [destruct (is_empty (Ref.field r)), (useNumberId_of options)|]|];
    destruct db, ty; try destruct (truthy un); try destruct (truthy bg);
    fragment_shape.
Qed.

(* ================================================================== *)
(** * The generator on a schema as it arrives *)

(** ** The typed generator is the run-time generator on typed fields *)

Lemma own_key_of (t : FieldType) : Runtime.own_key (Runtime.key_of t) = Some t.
Proof. destruct t; reflexivity. Qed.

Lemma cast_erase (field : Field.t) : Runtime.cast (Runtime.erase field) = field.
Proof.
  destruct field as [ty rq un bg dv rf]. unfold Runtime.cast, Runtime.erase; simpl.
  now rewrite own_key_of.
Qed.

Lemma cast_erase_schema (tables : BetterAuthDbSchema) :
  Runtime.cast_schema (erase_schema tables) = tables.
Proof.
  unfold Runtime.cast_schema, erase_schema. rewrite map_map.
  rewrite <- (map_id tables) at 2. apply map_ext. intros [tableKey [name fs]].
  unfold Runtime.cast_model, erase_table; simpl. do 2 f_equal.
  rewrite map_map. rewrite <- (map_id fs) at 2. apply map_ext.
  intros [fieldKey field]; simpl. now rewrite cast_erase.
Qed.

Lemma getType_erase (databaseType : option Provider) (adapter : Adapter.t)
      (options : BetterAuthOptions) (name : string) (field : Field.t) :
  Runtime.getType databaseType adapter options name (Runtime.erase field)
  = Runtime.cbind (as_completion (getType databaseType adapter options name field))
                  (fun fragment => Runtime.Normal (Some fragment)).
Proof.
  unfold Runtime.getType, getType, Runtime.typeMap_lookup.
  destruct databaseType as [db|]; [|reflexivity].
  rewrite cast_erase.
  destruct field as [ty rq un bg dv rf]; simpl. rewrite own_key_of.
  destruct rf as [r|]; [destruct (String.eqb (Ref.field r) "id")|]; reflexivity.
Qed.

Lemma column_erase (databaseType : option Provider) (adapter : Adapter.t)
      (options : BetterAuthOptions) (entry : string * Field.t) :
  Runtime.column databaseType adapter options (fst entry, Runtime.erase (snd entry))
  = as_completion (column databaseType adapter options entry).
Proof.
  destruct entry as [field attr]. unfold Runtime.column, column; simpl fst; simpl snd.
  rewrite getType_erase, cast_erase.
  destruct (getType databaseType adapter options field attr); simpl; [|reflexivity].
  destruct attr; reflexivity.
Qed.

Lemma cmap_erase (databaseType : option Provider) (adapter : Adapter.t)
      (options : BetterAuthOptions) (fs : list (string * Field.t)) :
  Runtime.cmap (Runtime.column databaseType adapter options)
               (map (fun entry => (fst entry, Runtime.erase (snd entry))) fs)
  = as_completion (omap (column databaseType adapter options) fs).
Proof.
  induction fs as [|entry fs IH]; [reflexivity|].
  cbn [map Runtime.cmap omap]. rewrite column_erase, IH.
  destruct (column databaseType adapter options entry); simpl; [|reflexivity].
  destruct (omap (column databaseType adapter options) fs); reflexivity.
Qed.

Lemma schema_erase (db : Provider) (adapter : Adapter.t)
      (options : BetterAuthOptions) (table : Table) :
  Runtime.schema db adapter options (erase_table table)
  = as_completion (schema db adapter options table).
Proof.
  unfold Runtime.schema, schema, erase_table; simpl. rewrite cmap_erase.
  destruct (omap (column (Some db) adapter options) (fields table)); reflexivity.
Qed.

Lemma emit_tables_erase (db : Provider) (adapter : Adapter.t)
      (options : BetterAuthOptions) (tables : BetterAuthDbSchema) (code : string) :
  Runtime.emit_tables db adapter options (erase_schema tables) code
  = as_run (emit_tables db adapter options tables code).
Proof.
  revert code. induction tables as [|[tableKey table] rest IH]; intros code.
  - reflexivity.
  - cbn [erase_schema map fst snd Runtime.emit_tables emit_tables].
    rewrite schema_erase.
    unfold Runtime.rbind, Runtime.log_event, bind, tell, lift.
    destruct (schema db adapter options table) as [text|e]; simpl; [|reflexivity].
    fold (erase_schema rest). rewrite IH.
    match goal with
    | |- context [emit_tables db adapter options rest ?c] =>
        destruct (emit_tables db adapter options rest c) as [log [final|e]]
    end; reflexivity.
Qed.

(** On a schema of typed fields and with a formatter that accepts, a run
    of the generator as it arrives is the run of the typed generator. *)
Lemma typed_run_is_run (w : World) (options : BetterAuthOptions)
      (file : option string) (adapter : Adapter.t) :
  Runtime.generateDrizzleSchema (erase_world w) options file adapter
  = as_run (generateDrizzleSchema w options file adapter).
Proof.
  unfold Runtime.generateDrizzleSchema, generateDrizzleSchema.
  destruct (chain (Adapter.options adapter) provider) as [db|]; [|reflexivity].
  cbn [erase_world Runtime.getAuthTables Runtime.existsSync].
  unfold Runtime.generateImport. rewrite cast_erase_schema, emit_tables_erase.
  unfold Runtime.rbind, Runtime.log_event, Runtime.format, bind, tell, ret.
  destruct (emit_tables db adapter options (getAuthTables w options)
              (generateImport db (getAuthTables w options) options))
    as [log [final|e]]; reflexivity.
Qed.

(** ** Which runs fail, and how *)







(** A field of one of the six types, or one that references an [id], never
    makes the lookup fault; in particular no typed field does. *)
Lemma mapped_fields_never_fault (field : Runtime.Attribute) :
  (forall t, Runtime.own_key (Runtime.type field) = Some t -> Runtime.faults field = false) /\
  (references_id (Runtime.cast field) = true -> Runtime.faults field = false) /\
  (forall typed, field = Runtime.erase typed -> Runtime.faults field = false).
Proof.
  unfold Runtime.faults. repeat split.
  - intros t K. rewrite K. apply andb_false_r.
  - intros R. now rewrite R.
  - intros typed ->. simpl. rewrite own_key_of. apply andb_false_r.
Qed.

(** The schema faults exactly when one of its fields does. *)
Lemma schema_faults_some (tables : Runtime.Schema) :
  Runtime.schema_faults tables = true <->
  exists tableKey table fieldKey field,
    In (tableKey, table) tables /\
    In (fieldKey, field) (Runtime.fields table) /\
    Runtime.faults field = true.
Proof.
  unfold Runtime.schema_faults, Runtime.model_faults. rewrite existsb_exists. split.
  - intros [[tableKey table] [Ht Hf]]. apply existsb_exists in Hf.
    destruct Hf as [[fieldKey field] [Hin F]].
    exists tableKey, table, fieldKey, field. auto.
  - intros [tableKey [table [fieldKey [field [Ht [Hf F]]]]]].
    exists (tableKey, table). split; [exact Ht|].
    apply existsb_exists. exists (fieldKey, field). auto.
Qed.
